(** * Manifest generators of the installer: networking and cluster DNS

    A shallow embedding of [pkg/asset/manifests]: the [Networking] asset
    ([Generate], [Files], [ClusterNetwork], [Load]) and the
    [clusterDNSOperator] asset ([Generate], [dnsOperatorConfig],
    [dnsConfig], [assetData]).

    Conventions.
    - A Go package is a [Module]; a struct is a [Record]; a slice is a
      [list]; a [[]byte] is a [list byte]; a nilable pointer is an [option].
    - A Go result [(T, error)] is a [result T]; a returned [error] is an
      [option error] ([None] is [nil]).
    - A method with a pointer receiver takes the receiver's value and gives
      back the receiver's new value next to what the method returns.
    - What the package imports from elsewhere (the Go standard library, the
      YAML codec, the operator API packages, the install-config package)
      is taken as a parameter: the classes [yaml.Marshaler],
      [yaml.Unmarshaler], [asset.FileFetcher] and [Collaborators], and the
      variables of the section of the DNS asset. *)

From Stdlib Require Import NArith Strings.Byte.
From stdpp Require Import base option list strings gmap sorting pretty.

Local Open Scope string_scope.
Local Open Scope list_scope.

(** A Go [[]byte]. *)
Abbreviation bytes := (list Byte.byte).

(** ** Go errors *)

(** The values of Go's [error] interface that this package sees: the two
    constructors of [github.com/pkg/errors] that it calls, and the errors of
    its collaborators, of which it only observes the message and what
    [os.IsNotExist] answers. *)
Inductive error : Type :=
| Errorf (msg : string)
| Wrapf (cause : error) (msg : string)
| Foreign (notExist : bool) (msg : string).

Inductive result (A : Type) : Type :=
| Ok (a : A)
| Err (e : error).
Arguments Ok {A} a.
Arguments Err {A} e.

Definition is_Ok {A} (r : result A) : bool :=
  match r with Ok _ => true | Err _ => false end.

Module os.
(** [os.IsNotExist] looks at the error itself (and through the
    standard library's own [PathError] and the like), not through a
    [pkg/errors] wrapper. *)
Definition IsNotExist (err : error) : bool :=
  match err with
  | Foreign notExist _ => notExist
  | Errorf _ | Wrapf _ _ => false
  end.
End os.

(** ** The imported API types, as far as the package touches them *)

Module net.
Definition IP : Type := bytes.
Record IPNet : Type := { IP_ : IP; Mask : bytes }.
End net.

Module ipnet.
(** [type IPNet struct { net.IPNet }] *)
Record IPNet : Type := { IPNet_ : net.IPNet }.
End ipnet.

Module metav1.
Record TypeMeta : Type := { APIVersion : string; Kind : string }.
Record ObjectMeta : Type := { Name : string }.
End metav1.

Module netopv1.
Definition NetworkType : Type := string.
Definition SDNMode : Type := string.

Record ClusterNetwork : Type :=
  { CIDR : string; HostSubnetLength : N }.

Record OpenshiftSDNConfig : Type := { Mode : SDNMode }.

Record DefaultNetworkDefinition : Type :=
  { Type_ : NetworkType;
    OpenshiftSDNConfig_ : option OpenshiftSDNConfig }.

Record NetworkConfigSpec : Type :=
  { ServiceNetwork : string;
    ClusterNetworks : list ClusterNetwork;
    DefaultNetwork : DefaultNetworkDefinition }.

Record NetworkConfig : Type :=
  { TypeMeta : metav1.TypeMeta;
    ObjectMeta : metav1.ObjectMeta;
    Spec : NetworkConfigSpec }.
End netopv1.

Module clusterv1a1.
Record NetworkRanges : Type := { CIDRBlocks : list string }.
Record ClusterNetworkingConfig : Type :=
  { Services : NetworkRanges; Pods : NetworkRanges }.
End clusterv1a1.

Module clusterdnsopapi.
Record ClusterDNSSpec : Type :=
  { ClusterIP : option string; ClusterDomain : option string }.
Record ClusterDNS : Type := { Spec : ClusterDNSSpec }.
End clusterdnsopapi.

(** ** The installer's own types that the two assets read *)

Module types.
(** Modelled from the spec: the declaration of [types.Networking] (package
    [pkg/types]) is not among the sources. Its fields are the networking
    parameters of the spec's data model (service CIDR, legacy pod CIDR, list
    of cluster network blocks, network plugin type), under the names by
    which [Generate] reads them; the pod CIDR is a value, which [Generate]
    reads without a test for [nil]. *)
Record Networking : Type :=
  { Type_ : netopv1.NetworkType;
    ServiceCIDR : ipnet.IPNet;
    ClusterNetworks : list netopv1.ClusterNetwork;
    PodCIDR : ipnet.IPNet }.

(** Modelled from the spec: the declaration of [types.InstallConfig] is not
    among the sources. The two fields are the ones the assets read: the base
    domain and the networking parameters. *)
Record InstallConfig : Type :=
  { BaseDomain : string; Networking_ : Networking }.
End types.

Module installconfig.
(** Modelled from the spec: the install-config asset (package
    [pkg/asset/installconfig]) is not among the sources; [Generate] reads
    its [Config]. *)
Record InstallConfig : Type := { Config : types.InstallConfig }.
End installconfig.

Module asset.
(** Modelled from the spec: the declarations of package [pkg/asset] are not
    among the sources. A generated file is a path and a byte content
    ([File], and [Content] in the interface the DNS asset was written
    against); a [State] is the list of contents of an asset. *)
Record File : Type := mk_File { Filename : string; Data : bytes }.
Record Content : Type := { Name : string; Data_ : bytes }.
Record State : Type := { Contents : list Content }.

(** [FileFetcher] is an interface with the one method the package calls. *)
Class FileFetcher (F : Type) : Type :=
  FetchByName : F -> string -> result File.
End asset.

Module yaml.
(** [yaml.Marshal(o interface{}) ([]byte, error)] and
    [yaml.Unmarshal(y []byte, o interface{}) error] into a fresh zero
    value, per Go type of [o]. *)
Class Marshaler (A : Type) : Type := Marshal : A -> result bytes.
Class Unmarshaler (A : Type) : Type := Unmarshal : bytes -> result A.

(** Decoding what the encoder wrote gives the value back. *)
Definition RoundTrip (A : Type) `{!Marshaler A, !Unmarshaler A} : Prop :=
  forall (o : A) (y : bytes), Marshal o = Ok y -> Unmarshal y = Ok o.
End yaml.

(** What the package takes from other packages. *)
Class Collaborators : Type :=
  { (* net.IP.IsUnspecified *)
    IsUnspecified : net.IP -> bool;
    (* ipnet.IPNet.String *)
    IPNet_String : ipnet.IPNet -> string;
    (* the package constant manifestDir *)
    manifestDir : string;
    (* filepath.Join, at two elements *)
    filepath_Join : string -> string -> string;
    (* netopv1.SchemeGroupVersion.String() *)
    SchemeGroupVersion_String : string;
    NetworkTypeOpenshiftSDN : netopv1.NetworkType;
    SDNModePolicy : netopv1.SDNMode }.

(** ** The networking asset *)

Module manifests.
Section networking.
Context `{Collaborators}.
Context `{!yaml.Marshaler netopv1.NetworkConfig}.
Context `{!yaml.Unmarshaler netopv1.NetworkConfig}.

Definition noCrdFilename : string :=
  filepath_Join manifestDir "cluster-network-01-crd.yml".
Definition noCfgFilename : string :=
  filepath_Join manifestDir "cluster-network-02-config.yml".

Definition netConfigCRD : string := "
apiVersion: apiextensions.k8s.io/v1beta1
kind: CustomResourceDefinition
metadata:
  name: networkconfigs.networkoperator.openshift.io
spec:
  group: networkoperator.openshift.io
  names:
    kind: NetworkConfig
    listKind: NetworkConfigList
    plural: networkconfigs
    singular: networkconfig
  scope: Cluster
  versions:
    - name: v1
      served: true
      storage: true
".

(** [type Networking struct { config *netopv1.NetworkConfig;
    FileList []*asset.File }] *)
Record Networking : Type :=
  { config : option netopv1.NetworkConfig;
    FileList : list asset.File }.

(** The zero value, as [&Networking{}] gives it. *)
Definition Networking_zero : Networking :=
  {| config := None; FileList := [] |}.

Definition Name : string := "Network Config".

(** The if / else-if / else of [Generate] that determines the pod address
    space ([clusterNets]), or the error of its last branch. *)
Definition clusterNets_of (netConfig : types.Networking)
  : result (list netopv1.ClusterNetwork) :=
  if Nat.ltb 0 (length (types.ClusterNetworks netConfig)) then
    Ok (types.ClusterNetworks netConfig)
  else if negb (IsUnspecified
                  (net.IP_ (ipnet.IPNet_ (types.PodCIDR netConfig)))) then
    Ok [ {| netopv1.CIDR := IPNet_String (types.PodCIDR netConfig);
            netopv1.HostSubnetLength := 9 |} ]
  else
    Err (Errorf "Either PodCIDR or ClusterNetworks must be specified").

(** The declaration of [defaultNet] and the [switch] on the network type
    that follows it. *)
Definition defaultNet_of (netConfig : types.Networking)
  : netopv1.DefaultNetworkDefinition :=
  let defaultNet :=
    {| netopv1.Type_ := types.Type_ netConfig;
       netopv1.OpenshiftSDNConfig_ := None |} in
  if String.eqb (types.Type_ netConfig) NetworkTypeOpenshiftSDN then
    {| netopv1.Type_ := netopv1.Type_ defaultNet;
       netopv1.OpenshiftSDNConfig_ :=
         Some {| netopv1.Mode := SDNModePolicy |} |}
  else defaultNet.

(** [func (no *Networking) Generate(dependencies asset.Parents) error].
    [installConfig] is what [dependencies.Get] fills in. The receiver's
    [config] is assigned before the marshalling, its [FileList] after. *)
Definition Generate (installConfig : installconfig.InstallConfig)
    (no : Networking) : option error * Networking :=
  let netConfig :=
    types.Networking_ (installconfig.Config installConfig) in
  match clusterNets_of netConfig with
  | Err e => (Some e, no)
  | Ok clusterNets =>
    let defaultNet := defaultNet_of netConfig in
    let cfg :=
      {| netopv1.TypeMeta :=
           {| metav1.APIVersion := SchemeGroupVersion_String;
              metav1.Kind := "NetworkConfig" |};
         netopv1.ObjectMeta := {| metav1.Name := "default" |};
         netopv1.Spec :=
           {| netopv1.ServiceNetwork :=
                IPNet_String (types.ServiceCIDR netConfig);
              netopv1.ClusterNetworks := clusterNets;
              netopv1.DefaultNetwork := defaultNet |} |} in
    let no := {| config := Some cfg; FileList := FileList no |} in
    match yaml.Marshal cfg with
    | Err err =>
      (Some (Wrapf err ("failed to create " +:+ Name +:+
                        " manifests from InstallConfig")), no)
    | Ok configData =>
      (None,
       {| config := config no;
          FileList :=
            [ {| asset.Filename := noCrdFilename;
                 asset.Data := String.list_byte_of_string netConfigCRD |};
              {| asset.Filename := noCfgFilename;
                 asset.Data := configData |} ] |})
    end
  end.

Definition Files (no : Networking) : list asset.File := FileList no.

(** [func (no *Networking) ClusterNetwork()], which returns a pointer to
    a [clusterv1a1.ClusterNetworkingConfig] and an [error]. The loop
    appends the CIDR of each cluster network to [pods], which starts
    empty. *)
Definition ClusterNetwork (no : Networking)
  : result clusterv1a1.ClusterNetworkingConfig :=
  match config no with
  | None => Err (Errorf "ClusterNetwork called before initialization")
  | Some config =>
    let pods :=
      foldl (fun pods cn => pods ++ [netopv1.CIDR cn]) []
            (netopv1.ClusterNetworks (netopv1.Spec config)) in
    Ok {| clusterv1a1.Services :=
            {| clusterv1a1.CIDRBlocks :=
                 [netopv1.ServiceNetwork (netopv1.Spec config)] |};
          clusterv1a1.Pods := {| clusterv1a1.CIDRBlocks := pods |} |}
  end.

(** [func (no *Networking) Load(f asset.FileFetcher) (bool, error)] *)
Definition Load `{!asset.FileFetcher F} (f : F) (no : Networking)
  : (bool * option error) * Networking :=
  match asset.FetchByName f noCrdFilename with
  | Err err =>
    if os.IsNotExist err then ((false, None), no)
    else ((false, Some err), no)
  | Ok crdFile =>
    match asset.FetchByName f noCfgFilename with
    | Err err =>
      if os.IsNotExist err then ((false, None), no)
      else ((false, Some err), no)
    | Ok cfgFile =>
      match yaml.Unmarshal (asset.Data cfgFile) with
      | Err err =>
        ((false, Some (Wrapf err ("failed to unmarshal " +:+ noCfgFilename))),
         no)
      | Ok netConfig =>
        let fileList := [crdFile; cfgFile] in
        ((true, None), {| config := Some netConfig; FileList := fileList |})
      end
    end
  end.

(** The file list that a successful [Generate] assigns to [FileList]. *)
Definition generated_files (configData : bytes) : list asset.File :=
  [ {| asset.Filename := noCrdFilename;
       asset.Data := String.list_byte_of_string netConfigCRD |};
    {| asset.Filename := noCfgFilename; asset.Data := configData |} ].

End networking.

(** ** The cluster DNS operator asset *)

Module cdo.
Section clusterDNSOperator.
(** [asset.Asset], and the [map[asset.Asset]*asset.State] that
    [Generate] receives. *)
Context {Asset Dependencies : Type}.
Context `{Collaborators}.
(** [installconfig.GetInstallConfig] *)
Variable GetInstallConfig :
  Asset -> Dependencies -> result types.InstallConfig.
(** [installconfig.ClusterDNSIP] *)
Variable ClusterDNSIP : types.InstallConfig -> result string.
(** [clusterdnsopmanifests.NewFactory().OperatorAssetContent()] *)
Variable OperatorAssetContent : result (gmap string bytes).
(** The call of [dnsConfig], see there. *)
Context `{!yaml.Marshaler (result clusterdnsopapi.ClusterDNS)}.

Record clusterDNSOperator : Type :=
  { installConfigAsset : Asset;
    installConfig : option types.InstallConfig }.

Definition Name : string := "Cluster DNS Operator".

Definition Dependencies_ (cdo : clusterDNSOperator) : list Asset :=
  [installConfigAsset cdo].

(** [sort.Strings]: increasing order of Go's string comparison, which
    compares byte by byte. *)
Definition sort_Strings (keys : list string) : list string :=
  merge_sort (fun a b : string => Is_true (String.leb a b)) keys.

(** [func (cdo *clusterDNSOperator) dnsOperatorConfig()], at the install
    config that [Generate] has stored in [cdo.installConfig]. *)
Definition dnsOperatorConfig (installConfig : types.InstallConfig)
  : result clusterdnsopapi.ClusterDNS :=
  match ClusterDNSIP installConfig with
  | Err err => Err err
  | Ok clusterIP =>
    Ok {| clusterdnsopapi.Spec :=
            {| clusterdnsopapi.ClusterIP := Some clusterIP;
               clusterdnsopapi.ClusterDomain :=
                 Some (types.BaseDomain installConfig) |} |}
  end.

(** [func (cdo *clusterDNSOperator) dnsConfig() ([]byte, error)]. Its body
    is [return yaml.Marshal(cdo.dnsOperatorConfig())], a call that Go's type
    checker refuses: [dnsOperatorConfig] has two results and [yaml.Marshal]
    one parameter. The body is kept as it is written, a function of what
    [dnsOperatorConfig] returns; [yaml.Marshal] at the type of that result
    stands for the call however it is made to compile, with a test of the
    error before the encoding or without one. What it returns for a failed
    result is left open: nothing here fixes it. *)
Definition dnsConfig (installConfig : types.InstallConfig) : result bytes :=
  yaml.Marshal (dnsOperatorConfig installConfig).

Definition assetData : result (gmap string bytes) := OperatorAssetContent.

(** [func (cdo *clusterDNSOperator) Generate(dependencies
    map[asset.Asset]*asset.State)], which returns a pointer to an
    [asset.State] and an [error]. *)
Definition Generate (dependencies : Dependencies) (cdo : clusterDNSOperator)
  : result asset.State * clusterDNSOperator :=
  match GetInstallConfig (installConfigAsset cdo) dependencies with
  | Err err => (Err err, cdo)
  | Ok ic =>
    let cdo := {| installConfigAsset := installConfigAsset cdo;
                  installConfig := Some ic |} in
    match dnsConfig ic with
    | Err err => (Err err, cdo)
    | Ok dnsConfig =>
      match assetData with
      | Err err => (Err err, cdo)
      | Ok assetData =>
        let keys :=
          foldl (fun keys k => keys ++ [k]) []
                (map fst (map_to_list assetData)) in
        let keys := sort_Strings keys in
        let assetContents :=
          foldl (fun assetContents k =>
                   assetContents ++
                   [ {| asset.Name := filepath_Join "cluster-dns-operator" k;
                        asset.Data_ := default [] (assetData !! k) |} ])
                [] keys in
        let assetContents :=
          assetContents ++
          [ {| asset.Name := "cluster-dns-operator-config.yml";
               asset.Data_ := dnsConfig |} ] in
        (Ok {| asset.Contents := assetContents |}, cdo)
      end
    end
  end.

End clusterDNSOperator.
End cdo.
End manifests.

(** ** A reference environment

    One concrete choice of the collaborators, on which the definitions above
    run: Go's [net.IP.IsUnspecified], a dotted rendering of a network, the
    constants of the operator API, a file fetcher backed by a list of files,
    and a codec that is total and injective. *)

Module Reference.
Import Byte.

#[global] Instance byte_eq_dec : EqDecision byte := Byte.byte_eq_dec.

Definition v4InV6Prefix : bytes :=
  [x00; x00; x00; x00; x00; x00; x00; x00; x00; x00; xff; xff].
Definition IPv4zero : net.IP := v4InV6Prefix ++ [x00; x00; x00; x00].
Definition IPv6unspecified : net.IP := replicate 16 x00.

(** [net.IP.Equal]: equal as they are, or as an IPv4 address and its
    16-byte form. *)
Definition IP_Equal (ip x : net.IP) : bool :=
  if Nat.eqb (length ip) (length x) then bool_decide (ip = x)
  else if Nat.eqb (length ip) 4 && Nat.eqb (length x) 16 then
    bool_decide (take 12 x = v4InV6Prefix) && bool_decide (ip = drop 12 x)
  else if Nat.eqb (length ip) 16 && Nat.eqb (length x) 4 then
    bool_decide (take 12 ip = v4InV6Prefix) && bool_decide (drop 12 ip = x)
  else false.

Definition IP_IsUnspecified (ip : net.IP) : bool :=
  IP_Equal ip IPv4zero || IP_Equal ip IPv6unspecified.

Definition ones (b : byte) : nat :=
  length (filter (fun i => Is_true (N.testbit (Byte.to_N b) i))
                 [0; 1; 2; 3; 4; 5; 6; 7]%N).

(** The address byte by byte in decimal, then the number of bits set in
    the mask. *)
Definition IPNet_dotted (n : ipnet.IPNet) : string :=
  String.concat "." (map (fun b => pretty (Byte.to_N b))
                         (net.IP_ (ipnet.IPNet_ n)))
  +:+ "/" +:+ pretty (sum_list (map ones (net.Mask (ipnet.IPNet_ n)))).

#[global] Instance collaborators : Collaborators :=
  {| IsUnspecified := IP_IsUnspecified;
     IPNet_String := IPNet_dotted;
     manifestDir := "manifests";
     filepath_Join := fun dir name => dir +:+ "/" +:+ name;
     SchemeGroupVersion_String := "networkoperator.openshift.io/v1";
     NetworkTypeOpenshiftSDN := "OpenshiftSDN";
     SDNModePolicy := "Networkpolicy" |}.

(** A fetcher over the files it holds; a name it does not hold is
    reported as not existing. *)
#[global] Instance list_FileFetcher : asset.FileFetcher (list asset.File) :=
  fun files name =>
    match List.find (fun file => String.eqb (asset.Filename file) name)
                    files with
    | Some file => Ok file
    | None => Err (Foreign true ("open " +:+ name +:+
                                 ": no such file or directory"))
    end.

(** A fetcher given by its answers. *)
#[global] Instance fun_FileFetcher
  : asset.FileFetcher (string -> result asset.File) :=
  fun answer name => answer name.

(** *** The codec: the binary digits of the value's code *)

#[global] Instance ClusterNetwork_eq_dec : EqDecision netopv1.ClusterNetwork.
Proof. solve_decision. Defined.
#[global] Instance OpenshiftSDNConfig_eq_dec
  : EqDecision netopv1.OpenshiftSDNConfig.
Proof. solve_decision. Defined.
#[global] Instance DefaultNetworkDefinition_eq_dec
  : EqDecision netopv1.DefaultNetworkDefinition.
Proof. solve_decision. Defined.
#[global] Instance NetworkConfigSpec_eq_dec
  : EqDecision netopv1.NetworkConfigSpec.
Proof. solve_decision. Defined.
#[global] Instance TypeMeta_eq_dec : EqDecision metav1.TypeMeta.
Proof. solve_decision. Defined.
#[global] Instance ObjectMeta_eq_dec : EqDecision metav1.ObjectMeta.
Proof. solve_decision. Defined.
#[global] Instance NetworkConfig_eq_dec : EqDecision netopv1.NetworkConfig.
Proof. solve_decision. Defined.

Definition fields (c : netopv1.NetworkConfig)
  : string * string * string * string
    * list (string * N) * string * option string :=
  let spec := netopv1.Spec c in
  let net := netopv1.DefaultNetwork spec in
  (metav1.APIVersion (netopv1.TypeMeta c),
   metav1.Kind (netopv1.TypeMeta c),
   metav1.Name (netopv1.ObjectMeta c),
   netopv1.ServiceNetwork spec,
   map (fun cn => (netopv1.CIDR cn, netopv1.HostSubnetLength cn))
       (netopv1.ClusterNetworks spec),
   netopv1.Type_ net,
   netopv1.Mode <$> netopv1.OpenshiftSDNConfig_ net).

Definition of_fields
    (t : string * string * string * string
         * list (string * N) * string * option string)
  : netopv1.NetworkConfig :=
  let '(apiVersion, kind, name, serviceNetwork, nets, type, mode) := t in
  {| netopv1.TypeMeta :=
       {| metav1.APIVersion := apiVersion; metav1.Kind := kind |};
     netopv1.ObjectMeta := {| metav1.Name := name |};
     netopv1.Spec :=
       {| netopv1.ServiceNetwork := serviceNetwork;
          netopv1.ClusterNetworks :=
            map (fun p => {| netopv1.CIDR := p.1;
                             netopv1.HostSubnetLength := p.2 |}) nets;
          netopv1.DefaultNetwork :=
            {| netopv1.Type_ := type;
               netopv1.OpenshiftSDNConfig_ :=
                 (fun m => {| netopv1.Mode := m |}) <$> mode |} |} |}.

Fixpoint bytes_of_pos (p : positive) : bytes :=
  match p with
  | xH => []
  | xO p => x30 :: bytes_of_pos p
  | xI p => x31 :: bytes_of_pos p
  end.

Fixpoint pos_of_bytes (data : bytes) : option positive :=
  match data with
  | [] => Some xH
  | x30 :: data => xO <$> pos_of_bytes data
  | x31 :: data => xI <$> pos_of_bytes data
  | _ => None
  end.

#[global] Instance Marshal_NetworkConfig
  : yaml.Marshaler netopv1.NetworkConfig :=
  fun c => Ok (bytes_of_pos (encode (fields c))).

#[global] Instance Unmarshal_NetworkConfig
  : yaml.Unmarshaler netopv1.NetworkConfig :=
  fun data =>
    match pos_of_bytes data ≫= decode with
    | Some t => Ok (of_fields t)
    | None => Err (Foreign false "yaml: unmarshal errors")
    end.

(** Every value is encoded; a missing configuration as [null]. *)
#[global] Instance Marshal_ClusterDNS
  : yaml.Marshaler (result clusterdnsopapi.ClusterDNS) :=
  fun r =>
    match r with
    | Ok dns =>
      Ok (bytes_of_pos
            (encode (clusterdnsopapi.ClusterIP (clusterdnsopapi.Spec dns),
                     clusterdnsopapi.ClusterDomain
                       (clusterdnsopapi.Spec dns))))
    | Err _ => Ok (String.list_byte_of_string "null")
    end.
End Reference.

(** ** Sample inputs *)

Module Samples.
Import Byte.

Definition network (ip mask : bytes) : ipnet.IPNet :=
  {| ipnet.IPNet_ := {| net.IP_ := ip; net.Mask := mask |} |}.

(** 10.128.0.0/14, 172.30.0.0/16 and 0.0.0.0/0 *)
Definition pods : ipnet.IPNet :=
  network [x0a; x80; x00; x00] [xff; xfc; x00; x00].
Definition services : ipnet.IPNet :=
  network [xac; x1e; x00; x00] [xff; xff; x00; x00].
Definition unspecified : ipnet.IPNet :=
  network [x00; x00; x00; x00] [x00; x00; x00; x00].

Definition install (type : netopv1.NetworkType)
    (nets : list netopv1.ClusterNetwork) (podCIDR : ipnet.IPNet)
  : installconfig.InstallConfig :=
  {| installconfig.Config :=
       {| types.BaseDomain := "example.com";
          types.Networking_ :=
            {| types.Type_ := type;
               types.ServiceCIDR := services;
               types.ClusterNetworks := nets;
               types.PodCIDR := podCIDR |} |} |}.

Definition two_nets : list netopv1.ClusterNetwork :=
  [ {| netopv1.CIDR := "10.128.0.0/14"; netopv1.HostSubnetLength := 9 |};
    {| netopv1.CIDR := "10.0.0.0/14"; netopv1.HostSubnetLength := 8 |} ].

(** Only the legacy pod CIDR; an explicit list next to a pod CIDR;
    neither. *)
Definition legacy : installconfig.InstallConfig :=
  install "OpenshiftSDN" [] pods.
Definition explicit : installconfig.InstallConfig :=
  install "OVNKubernetes" two_nets pods.
Definition neither : installconfig.InstallConfig :=
  install "OpenshiftSDN" [] unspecified.

Definition generated (installConfig : installconfig.InstallConfig)
  : manifests.Networking :=
  (manifests.Generate installConfig manifests.Networking_zero).2.

Definition denied : error := Foreign false "permission denied".
Definition missing : error := Foreign true "no such file or directory".

(** The manifest directory cannot be read, and holds no configuration
    file: the first fetch is refused, the second would find nothing. *)
Definition unreadable : string -> result asset.File :=
  fun name =>
    if String.eqb name manifests.noCfgFilename then Err missing
    else Err denied.

(** Both files are there; the configuration file is not what the codec
    wrote. *)
Definition garbled : list asset.File :=
  [ {| asset.Filename := manifests.noCrdFilename;
       asset.Data := String.list_byte_of_string manifests.netConfigCRD |};
    {| asset.Filename := manifests.noCfgFilename;
       asset.Data := String.list_byte_of_string "spec: [" |} ].

(** The DNS asset's collaborators: an install config whose service
    network the cluster-IP helper rejects, and two operator assets. *)
Definition no_services : types.InstallConfig :=
  {| types.BaseDomain := "example.com";
     types.Networking_ :=
       {| types.Type_ := "OpenshiftSDN";
          types.ServiceCIDR := unspecified;
          types.ClusterNetworks := two_nets;
          types.PodCIDR := pods |} |}.
Definition GetInstallConfig (a : unit) (dependencies : unit)
  : result types.InstallConfig :=
  Ok no_services.
Definition ClusterDNSIP (installConfig : types.InstallConfig)
  : result string :=
  if IsUnspecified
       (net.IP_ (ipnet.IPNet_
                   (types.ServiceCIDR (types.Networking_ installConfig))))
  then Err (Foreign false "invalid service CIDR")
  else Ok "172.30.0.10".
Definition OperatorAssetContent : result (gmap string bytes) :=
  Ok (<["b.yaml" := [x62]]> (<["a.yaml" := [x61]]> ∅)).
Definition dns : manifests.cdo.clusterDNSOperator :=
  {| manifests.cdo.installConfigAsset := tt;
     manifests.cdo.installConfig := None |}.
End Samples.

(** ** The order of a [range] over the operator's assets *)

Module ranging.
Section clusterDNSOperator.
Context {Asset Dependencies : Type} `{Collaborators}.
Variable GetInstallConfig : Asset -> Dependencies -> result types.InstallConfig.
Variable ClusterDNSIP : types.InstallConfig -> result string.
Variable OperatorAssetContent : result (gmap string bytes).
Context `{!yaml.Marshaler (result clusterdnsopapi.ClusterDNS)}.

(** [clusterDNSOperator.Generate] once more, with the order in which
    [for k := range assetData] visits the keys of the map as the parameter
    [visit]: Go leaves that order open, and [manifests.cdo.Generate] is this
    function at the order of [map_to_list]. *)
Definition Generate (visit : list string) (dependencies : Dependencies)
    (cdo : manifests.cdo.clusterDNSOperator)
  : result asset.State * manifests.cdo.clusterDNSOperator :=
  match GetInstallConfig (manifests.cdo.installConfigAsset cdo)
                         dependencies with
  | Err err => (Err err, cdo)
  | Ok ic =>
    let cdo :=
      {| manifests.cdo.installConfigAsset :=
           manifests.cdo.installConfigAsset cdo;
         manifests.cdo.installConfig := Some ic |} in
    match manifests.cdo.dnsConfig ClusterDNSIP ic with
    | Err err => (Err err, cdo)
    | Ok dnsConfig =>
      match manifests.cdo.assetData OperatorAssetContent with
      | Err err => (Err err, cdo)
      | Ok assetData =>
        let keys := foldl (fun keys k => keys ++ [k]) [] visit in
        let keys := manifests.cdo.sort_Strings keys in
        let assetContents :=
          foldl (fun assetContents k =>
                   assetContents ++
                   [ {| asset.Name := filepath_Join "cluster-dns-operator" k;
                        asset.Data_ := default [] (assetData !! k) |} ])
                [] keys in
        let assetContents :=
          assetContents ++
          [ {| asset.Name := "cluster-dns-operator-config.yml";
               asset.Data_ := dnsConfig |} ] in
        (Ok {| asset.Contents := assetContents |}, cdo)
      end
    end
  end.

End clusterDNSOperator.
End ranging.

(** ** More sample inputs *)

Module Samples2.
Import Byte.

(** The generated files, the CRD file replaced by an empty one. *)
Definition edited : list asset.File :=
  match manifests.Files (Samples.generated Samples.explicit) with
  | [_; cfgFile] =>
    [ {| asset.Filename := manifests.noCrdFilename; asset.Data := [] |};
      cfgFile ]
  | files => files
  end.

(** An encoder that refuses every value. *)
Definition refusing : yaml.Marshaler netopv1.NetworkConfig :=
  fun _ => Err (Foreign false "json: unsupported value").

(** Only the CRD file is there. *)
Definition crd_only : list asset.File :=
  [ {| asset.Filename := manifests.noCrdFilename;
       asset.Data := String.list_byte_of_string manifests.netConfigCRD |} ].


(** The DNS asset's collaborators where every step succeeds. *)
Definition ClusterDNSIP (installConfig : types.InstallConfig)
  : result string := Ok "172.30.0.10".
Definition assets : gmap string bytes :=
  <["b.yaml" := [x62]]> (<["a.yaml" := [x61]]> (<["c.yaml" := [x63]]> ∅)).
Definition OperatorAssetContent : result (gmap string bytes) := Ok assets.
Definition failing_assets : result (gmap string bytes) :=
  Err (Foreign false "asset not found").
End Samples2.

(** * Properties of the networking asset *)

Section NetworkingProperties.
Import manifests.
Context `{Collaborators}.
Context `{!yaml.Marshaler netopv1.NetworkConfig}.
Context `{!yaml.Unmarshaler netopv1.NetworkConfig}.

Lemma clusterNets_of_explicit netConfig :
  types.ClusterNetworks netConfig <> [] ->
  clusterNets_of netConfig = Ok (types.ClusterNetworks netConfig).
Proof.
  unfold clusterNets_of.
  destruct (types.ClusterNetworks netConfig) as [|cn cns]; [congruence|done].
Qed.

Lemma clusterNets_of_legacy netConfig :
  types.ClusterNetworks netConfig = [] ->
  IsUnspecified (net.IP_ (ipnet.IPNet_ (types.PodCIDR netConfig))) = false ->
  clusterNets_of netConfig =
    Ok [ {| netopv1.CIDR := IPNet_String (types.PodCIDR netConfig);
            netopv1.HostSubnetLength := 9 |} ].
Proof. intros Hnil Hip. unfold clusterNets_of. by rewrite Hnil, Hip. Qed.

Lemma clusterNets_of_neither netConfig :
  types.ClusterNetworks netConfig = [] ->
  IsUnspecified (net.IP_ (ipnet.IPNet_ (types.PodCIDR netConfig))) = true ->
  clusterNets_of netConfig =
    Err (Errorf "Either PodCIDR or ClusterNetworks must be specified").
Proof. intros Hnil Hip. unfold clusterNets_of. by rewrite Hnil, Hip. Qed.

(** Once the pod address space is determined, [Generate] stores a
    configuration built from it, and its outcome is the encoder's. *)
Lemma Generate_determined installConfig no clusterNets :
  let netConfig := types.Networking_ (installconfig.Config installConfig) in
  clusterNets_of netConfig = Ok clusterNets ->
  exists cfg,
    netopv1.Spec cfg =
      {| netopv1.ServiceNetwork := IPNet_String (types.ServiceCIDR netConfig);
         netopv1.ClusterNetworks := clusterNets;
         netopv1.DefaultNetwork := defaultNet_of netConfig |}
    /\ Generate installConfig no =
       match yaml.Marshal cfg with
       | Ok configData =>
         (None,
          {| config := Some cfg; FileList := generated_files configData |})
       | Err err =>
         (Some (Wrapf err "failed to create Network Config manifests from InstallConfig"),
          {| config := Some cfg; FileList := FileList no |})
       end.
Proof.
  intros netConfig Hnets. unfold Generate. fold netConfig. rewrite Hnets.
  match goal with |- context [yaml.Marshal ?c] => exists c end.
  split; [reflexivity|].
  by destruct (yaml.Marshal _) as [configData|err].
Qed.

(** The [switch] attaches a plugin configuration in its one [case]. *)
Lemma defaultNet_of_cases netConfig :
  defaultNet_of netConfig =
    {| netopv1.Type_ := types.Type_ netConfig;
       netopv1.OpenshiftSDNConfig_ :=
         if decide (types.Type_ netConfig = NetworkTypeOpenshiftSDN)
         then Some {| netopv1.Mode := SDNModePolicy |}
         else None |}.
Proof.
  unfold defaultNet_of.
  destruct (String.eqb_spec (types.Type_ netConfig) NetworkTypeOpenshiftSDN)
    as [Heq|Hne]; simpl.
  - by rewrite decide_True.
  - by rewrite decide_False.
Qed.

Lemma ClusterNetwork_pods (cns : list netopv1.ClusterNetwork) acc :
  foldl (fun pods cn => pods ++ [netopv1.CIDR cn]) acc cns =
    acc ++ map netopv1.CIDR cns.
Proof.
  revert acc. induction cns as [|cn cns IH]; intros acc; simpl.
  - by rewrite app_nil_r.
  - by rewrite IH, <- app_assoc.
Qed.

(** C1. With an empty cluster-network list and a pod CIDR that is not the
    unspecified address, [Generate] stores a configuration whose cluster
    networks are the single entry made of the pod CIDR's string form and
    host-subnet length 9, and it returns no error unless the YAML encoder
    rejects that configuration. *)
Theorem Generate_legacy_PodCIDR installConfig no :
  let netConfig := types.Networking_ (installconfig.Config installConfig) in
  types.ClusterNetworks netConfig = [] ->
  IsUnspecified (net.IP_ (ipnet.IPNet_ (types.PodCIDR netConfig))) = false ->
  exists cfg,
    config (Generate installConfig no).2 = Some cfg
    /\ netopv1.ClusterNetworks (netopv1.Spec cfg) =
         [ {| netopv1.CIDR := IPNet_String (types.PodCIDR netConfig);
              netopv1.HostSubnetLength := 9 |} ]
    /\ (Generate installConfig no).1 =
         match yaml.Marshal cfg with
         | Ok _ => None
         | Err err =>
           Some (Wrapf err "failed to create Network Config manifests from InstallConfig")
         end.
Proof.
  intros netConfig Hnil Hip.
  destruct (Generate_determined installConfig no _
              (clusterNets_of_legacy netConfig Hnil Hip)) as (cfg & Hspec & ->).
  exists cfg. rewrite Hspec.
  by destruct (yaml.Marshal cfg).
Qed.

(** C2. With a non-empty cluster-network list, whatever the pod CIDR,
    [Generate] stores a configuration whose cluster networks are that list,
    entry for entry, and it returns no error unless the YAML encoder rejects
    that configuration. *)
Theorem Generate_explicit_ClusterNetworks installConfig no :
  let netConfig := types.Networking_ (installconfig.Config installConfig) in
  types.ClusterNetworks netConfig <> [] ->
  exists cfg,
    config (Generate installConfig no).2 = Some cfg
    /\ netopv1.ClusterNetworks (netopv1.Spec cfg) =
         types.ClusterNetworks netConfig
    /\ (Generate installConfig no).1 =
         match yaml.Marshal cfg with
         | Ok _ => None
         | Err err =>
           Some (Wrapf err "failed to create Network Config manifests from InstallConfig")
         end.
Proof.
  intros netConfig Hne.
  destruct (Generate_determined installConfig no _
              (clusterNets_of_explicit netConfig Hne)) as (cfg & Hspec & ->).
  exists cfg. rewrite Hspec.
  by destruct (yaml.Marshal cfg).
Qed.

(** C3. With an empty cluster-network list and the unspecified address as
    pod CIDR, [Generate] returns the error that either of them must be
    specified, and leaves the asset as it was. *)
Theorem Generate_no_networking installConfig no :
  let netConfig := types.Networking_ (installconfig.Config installConfig) in
  types.ClusterNetworks netConfig = [] ->
  IsUnspecified (net.IP_ (ipnet.IPNet_ (types.PodCIDR netConfig))) = true ->
  Generate installConfig no =
    (Some (Errorf "Either PodCIDR or ClusterNetworks must be specified"), no).
Proof.
  intros netConfig Hnil Hip. unfold Generate. fold netConfig.
  by rewrite (clusterNets_of_neither netConfig Hnil Hip).
Qed.

(** C5. Whenever [Generate] gets past the choice of the pod address space,
    the default network of the configuration it stores has the install
    config's network type, and carries an OpenshiftSDN configuration, with
    the policy mode, exactly when that type is OpenshiftSDN. *)
Theorem Generate_defaultNet installConfig no :
  let netConfig := types.Networking_ (installconfig.Config installConfig) in
  types.ClusterNetworks netConfig <> []
  \/ IsUnspecified (net.IP_ (ipnet.IPNet_ (types.PodCIDR netConfig))) = false ->
  exists cfg,
    config (Generate installConfig no).2 = Some cfg
    /\ netopv1.Type_ (netopv1.DefaultNetwork (netopv1.Spec cfg)) =
         types.Type_ netConfig
    /\ netopv1.OpenshiftSDNConfig_ (netopv1.DefaultNetwork (netopv1.Spec cfg)) =
         if decide (types.Type_ netConfig = NetworkTypeOpenshiftSDN)
         then Some {| netopv1.Mode := SDNModePolicy |}
         else None.
Proof.
  intros netConfig Hsrc.
  assert (exists clusterNets, clusterNets_of netConfig = Ok clusterNets)
    as [clusterNets Hnets].
  { destruct (decide (types.ClusterNetworks netConfig = [])) as [Hnil|Hne].
    - destruct Hsrc as [Hne|Hip]; [done|].
      eexists. by apply clusterNets_of_legacy.
    - eexists. by apply clusterNets_of_explicit. }
  destruct (Generate_determined installConfig no _ Hnets) as (cfg & Hspec & ->).
  exists cfg. rewrite Hspec. simpl.
  split; [by destruct (yaml.Marshal cfg)|].
  by rewrite defaultNet_of_cases.
Qed.

Section Loading.
Context {F : Type} `{!asset.FileFetcher F}.

(** C6, as amended. When the fetch of the CRD file fails, or it succeeds and
    the fetch of the configuration file fails, [Load] returns false and
    leaves the asset as it was; the error it returns is [nil] if the
    failed fetch reported that the file does not exist, and the fetch error
    itself otherwise. *)
Theorem Load_fetch_error (f : F) no err :
  asset.FetchByName f noCrdFilename = Err err
  \/ (is_Ok (asset.FetchByName f noCrdFilename) = true
      /\ asset.FetchByName f noCfgFilename = Err err) ->
  Load f no = ((false, if os.IsNotExist err then None else Some err), no).
Proof.
  unfold Load. intros [Hcrd|[Hcrd Hcfg]].
  - rewrite Hcrd. by destruct (os.IsNotExist err).
  - destruct (asset.FetchByName f noCrdFilename) as [crdFile|]; [|done].
    rewrite Hcfg. by destruct (os.IsNotExist err).
Qed.

(** C7. When both files are fetched and the configuration file's bytes do
    not decode, [Load] returns false and the decoder's error wrapped with
    the configuration file's name. *)
Theorem Load_unmarshal_error (f : F) no crdFile cfgFile err :
  asset.FetchByName f noCrdFilename = Ok crdFile ->
  asset.FetchByName f noCfgFilename = Ok cfgFile ->
  yaml.Unmarshal (asset.Data cfgFile) = Err err ->
  (Load f no).1 =
    (false, Some (Wrapf err ("failed to unmarshal " +:+ noCfgFilename))).
Proof. intros Hcrd Hcfg Hyaml. unfold Load. by rewrite Hcrd, Hcfg, Hyaml. Qed.

(** C10. Whenever [Load] returns false, the asset's configuration and file
    list are what they were before the call. *)
Theorem Load_false_unchanged (f : F) no :
  (Load f no).1.1 = false -> (Load f no).2 = no.
Proof.
  unfold Load.
  destruct (asset.FetchByName f noCrdFilename) as [crdFile|err];
    [|by destruct (os.IsNotExist err)].
  destruct (asset.FetchByName f noCfgFilename) as [cfgFile|err];
    [|by destruct (os.IsNotExist err)].
  by destruct (yaml.Unmarshal (asset.Data cfgFile)).
Qed.

(** [Load] returns true only with a [nil] error and a stored
    configuration. *)
Lemma Load_true (f : F) no :
  (Load f no).1.1 = true ->
  (Load f no).1.2 = None /\ is_Some (config (Load f no).2).
Proof.
  unfold Load.
  destruct (asset.FetchByName f noCrdFilename) as [crdFile|err];
    [|by destruct (os.IsNotExist err)].
  destruct (asset.FetchByName f noCfgFilename) as [cfgFile|err];
    [|by destruct (os.IsNotExist err)].
  destruct (yaml.Unmarshal (asset.Data cfgFile)); [|done].
  simpl. eauto.
Qed.

(** C4. When the codec gives back what it encoded, [Load], from a fetcher
    that answers the name of each file of a successful [Generate] with that
    file, returns true and no error, and the asset it leaves holds the
    configuration and the file list of the generated asset. *)
Theorem Load_Generate_roundtrip installConfig no generated (f : F) no' :
  yaml.RoundTrip netopv1.NetworkConfig ->
  Generate installConfig no = (None, generated) ->
  (forall file, file ∈ Files generated ->
                asset.FetchByName f (asset.Filename file) = Ok file) ->
  Load f no' = ((true, None), generated).
Proof.
  intros Hcodec Hgen Hfetch.
  destruct (clusterNets_of
              (types.Networking_ (installconfig.Config installConfig)))
    as [clusterNets|err] eqn:Hnets.
  - destruct (Generate_determined installConfig no _ Hnets)
      as (cfg & _ & Hcases).
    rewrite Hgen in Hcases.
    destruct (yaml.Marshal cfg) as [configData|err] eqn:Hyaml; [|done].
    injection Hcases as ->.
    unfold Files, generated_files in Hfetch. simpl in Hfetch.
    pose proof (Hfetch (asset.mk_File noCrdFilename
                          (String.list_byte_of_string netConfigCRD))) as Hcrd.
    pose proof (Hfetch (asset.mk_File noCfgFilename configData)) as Hcfg.
    simpl in Hcrd, Hcfg.
    unfold Load. rewrite Hcrd, Hcfg by set_solver.
    simpl. by rewrite (Hcodec _ _ Hyaml).
  - unfold Generate in Hgen. by rewrite Hnets in Hgen.
Qed.

End Loading.

(** C9. [ClusterNetwork] returns an error exactly on an asset without a
    configuration, which is how the zero value starts and which no
    successful [Generate] or [Load] leaves behind; with a configuration, it
    returns the service network as the only services block and the CIDRs of
    the cluster networks, in their order, as the pods blocks. *)
Theorem ClusterNetwork_initialized no :
  (is_Ok (ClusterNetwork no) = false <-> config no = None)
  /\ config Networking_zero = None
  /\ (forall installConfig,
        (Generate installConfig no).1 = None ->
        is_Some (config (Generate installConfig no).2))
  /\ (forall (F : Type) (fetcher : asset.FileFetcher F) (f : F),
        (Load f no).1.1 = true -> is_Some (config (Load f no).2))
  /\ (forall cfg,
        config no = Some cfg ->
        ClusterNetwork no =
          Ok {| clusterv1a1.Services :=
                  {| clusterv1a1.CIDRBlocks :=
                       [netopv1.ServiceNetwork (netopv1.Spec cfg)] |};
                clusterv1a1.Pods :=
                  {| clusterv1a1.CIDRBlocks :=
                       map netopv1.CIDR
                           (netopv1.ClusterNetworks (netopv1.Spec cfg)) |} |}).
Proof.
  split; [|split; [done|split; [|split]]].
  - unfold ClusterNetwork. by destruct (config no).
  - intros installConfig. unfold Generate.
    destruct (clusterNets_of _); [|done].
    destruct (yaml.Marshal _); simpl; eauto.
  - intros F fetcher f Htrue. by apply Load_true.
  - intros cfg Hcfg. unfold ClusterNetwork. rewrite Hcfg.
    by rewrite ClusterNetwork_pods.
Qed.

End NetworkingProperties.

(** * Properties of the cluster DNS operator asset *)

Section ClusterDNSProperties.
Context {Asset Dependencies : Type} `{Collaborators}.
Variable GetInstallConfig : Asset -> Dependencies -> result types.InstallConfig.
Variable ClusterDNSIP : types.InstallConfig -> result string.
Variable OperatorAssetContent : result (gmap string bytes).
Context `{!yaml.Marshaler (result clusterdnsopapi.ClusterDNS)}.

Local Abbreviation cdo_Generate :=
  (manifests.cdo.Generate GetInstallConfig ClusterDNSIP OperatorAssetContent).

(** An error of [GetInstallConfig], of the call of [dnsConfig] or of the
    operator's asset factory is returned as it is, with no state. *)
Lemma cdo_Generate_GetInstallConfig_error dependencies cdo err :
  GetInstallConfig (manifests.cdo.installConfigAsset cdo) dependencies
    = Err err ->
  cdo_Generate dependencies cdo = (Err err, cdo).
Proof. intros Hic. unfold manifests.cdo.Generate. by rewrite Hic. Qed.

Lemma cdo_Generate_Marshal_error dependencies cdo ic err :
  GetInstallConfig (manifests.cdo.installConfigAsset cdo) dependencies
    = Ok ic ->
  yaml.Marshal (manifests.cdo.dnsOperatorConfig ClusterDNSIP ic) = Err err ->
  (cdo_Generate dependencies cdo).1 = Err err.
Proof.
  intros Hic Hyaml. unfold manifests.cdo.Generate, manifests.cdo.dnsConfig.
  by rewrite Hic, Hyaml.
Qed.

Lemma cdo_Generate_assetData_error dependencies cdo ic dnsConfig err :
  GetInstallConfig (manifests.cdo.installConfigAsset cdo) dependencies
    = Ok ic ->
  yaml.Marshal (manifests.cdo.dnsOperatorConfig ClusterDNSIP ic)
    = Ok dnsConfig ->
  OperatorAssetContent = Err err ->
  (cdo_Generate dependencies cdo).1 = Err err.
Proof.
  intros Hic Hyaml Hdata.
  unfold manifests.cdo.Generate, manifests.cdo.dnsConfig,
    manifests.cdo.assetData.
  by rewrite Hic, Hyaml, Hdata.
Qed.


End ClusterDNSProperties.

(** * The reference environment meets the assumptions *)

Lemma pos_of_bytes_of_pos p :
  Reference.pos_of_bytes (Reference.bytes_of_pos p) = Some p.
Proof. induction p as [p IH|p IH|]; simpl; by rewrite ?IH. Qed.

Lemma of_fields_fields c : Reference.of_fields (Reference.fields c) = c.
Proof.
  destruct c as [[apiVersion kind] [name] [serviceNetwork nets [type sdn]]].
  unfold Reference.fields, Reference.of_fields. simpl. do 2 f_equal.
  - rewrite map_map. simpl. induction nets as [|[cidr len] nets IH]; simpl.
    + done.
    + by rewrite IH.
  - f_equal. by destruct sdn as [[mode]|].
Qed.

Lemma Reference_RoundTrip : yaml.RoundTrip netopv1.NetworkConfig.
Proof.
  intros o y [= <-]. unfold yaml.Unmarshal, Reference.Unmarshal_NetworkConfig.
  rewrite pos_of_bytes_of_pos. simpl. rewrite decode_encode.
  by rewrite of_fields_fields.
Qed.

Lemma Reference_fetch_generated configData file :
  file ∈ manifests.generated_files configData ->
  asset.FetchByName (manifests.generated_files configData)
                    (asset.Filename file) = Ok file.
Proof.
  unfold manifests.generated_files.
  intros [->|[->|[]%elem_of_nil]%elem_of_cons]%elem_of_cons; reflexivity.
Qed.

(** * The properties at the sample inputs *)

Lemma Generate_legacy_PodCIDR_witness :
  exists cfg,
    manifests.config (Samples.generated Samples.legacy) = Some cfg
    /\ netopv1.ClusterNetworks (netopv1.Spec cfg) =
         [ {| netopv1.CIDR := "10.128.0.0/14";
              netopv1.HostSubnetLength := 9 |} ]
    /\ (manifests.Generate Samples.legacy manifests.Networking_zero).1 = None.
Proof.
  exact (Generate_legacy_PodCIDR Samples.legacy manifests.Networking_zero
           eq_refl eq_refl).
Defined.

Lemma Generate_explicit_ClusterNetworks_witness :
  exists cfg,
    manifests.config (Samples.generated Samples.explicit) = Some cfg
    /\ netopv1.ClusterNetworks (netopv1.Spec cfg) = Samples.two_nets
    /\ (manifests.Generate Samples.explicit manifests.Networking_zero).1 = None.
Proof.
  assert (Samples.two_nets <> []) as Hne by discriminate.
  exact (Generate_explicit_ClusterNetworks
           Samples.explicit manifests.Networking_zero Hne).
Defined.

Lemma Generate_no_networking_witness :
  manifests.Generate Samples.neither manifests.Networking_zero =
    (Some (Errorf "Either PodCIDR or ClusterNetworks must be specified"),
     manifests.Networking_zero).
Proof.
  apply (Generate_no_networking Samples.neither manifests.Networking_zero);
    reflexivity.
Defined.

Lemma Generate_defaultNet_witness :
  exists cfg,
    manifests.config (Samples.generated Samples.legacy) = Some cfg
    /\ netopv1.Type_ (netopv1.DefaultNetwork (netopv1.Spec cfg)) =
         "OpenshiftSDN"
    /\ netopv1.OpenshiftSDNConfig_ (netopv1.DefaultNetwork (netopv1.Spec cfg)) =
         Some {| netopv1.Mode := "Networkpolicy" |}.
Proof.
  exact (Generate_defaultNet Samples.legacy manifests.Networking_zero
           (or_intror eq_refl)).
Defined.

Lemma Load_fetch_error_witness :
  manifests.Load Samples.unreadable manifests.Networking_zero =
    ((false, Some Samples.denied), manifests.Networking_zero).
Proof.
  apply (Load_fetch_error Samples.unreadable manifests.Networking_zero
                          Samples.denied).
  left. reflexivity.
Defined.

(** C6, as stated, fails where the first fetch is refused: the fetcher
    reports the configuration file as not existing, and [Load] returns the
    refusal of the CRD file. *)
Lemma Load_missing_config_counterexample :
  (asset.FetchByName Samples.unreadable manifests.noCfgFilename
     = Err Samples.missing
   /\ os.IsNotExist Samples.missing = true)
  /\ (manifests.Load Samples.unreadable manifests.Networking_zero).1
       = (false, Some Samples.denied)
  /\ (manifests.Load Samples.unreadable manifests.Networking_zero).1
       <> (false, None).
Proof. repeat split; try reflexivity. vm_compute. discriminate. Qed.

Lemma Load_unmarshal_error_witness :
  (manifests.Load Samples.garbled manifests.Networking_zero).1 =
    (false,
     Some (Wrapf (Foreign false "yaml: unmarshal errors")
                 "failed to unmarshal manifests/cluster-network-02-config.yml")).
Proof.
  exact (Load_unmarshal_error
           Samples.garbled manifests.Networking_zero
           (asset.mk_File manifests.noCrdFilename
              (String.list_byte_of_string manifests.netConfigCRD))
           (asset.mk_File manifests.noCfgFilename
              (String.list_byte_of_string "spec: ["))
           (Foreign false "yaml: unmarshal errors")
           eq_refl eq_refl eq_refl).
Defined.

Lemma Load_false_unchanged_witness :
  (manifests.Load Samples.garbled manifests.Networking_zero).2 =
    manifests.Networking_zero.
Proof.
  apply (Load_false_unchanged Samples.garbled manifests.Networking_zero).
  reflexivity.
Defined.

Lemma Load_Generate_roundtrip_witness :
  manifests.Load (manifests.Files (Samples.generated Samples.legacy))
                 manifests.Networking_zero =
    ((true, None), Samples.generated Samples.legacy).
Proof.
  apply (Load_Generate_roundtrip Samples.legacy manifests.Networking_zero).
  - exact Reference_RoundTrip.
  - reflexivity.
  - exact (Reference_fetch_generated _).
Defined.

Lemma ClusterNetwork_initialized_witness :
  manifests.ClusterNetwork (Samples.generated Samples.explicit) =
    Ok {| clusterv1a1.Services :=
            {| clusterv1a1.CIDRBlocks := ["172.30.0.0/16"] |};
          clusterv1a1.Pods :=
            {| clusterv1a1.CIDRBlocks := ["10.128.0.0/14"; "10.0.0.0/14"] |} |}.
Proof.
  destruct (ClusterNetwork_initialized (Samples.generated Samples.explicit))
    as (_ & _ & _ & _ & Hcfg).
  exact (Hcfg _ eq_refl).
Defined.


(** * Further properties of the networking asset *)

Section NetworkingGenerate.
Import manifests.
Context `{Collaborators}.
Context `{!yaml.Marshaler netopv1.NetworkConfig}.
Context `{!yaml.Unmarshaler netopv1.NetworkConfig}.

Lemma clusterNets_of_Err netConfig e :
  clusterNets_of netConfig = Err e ->
  e = Errorf "Either PodCIDR or ClusterNetworks must be specified"
  /\ types.ClusterNetworks netConfig = []
  /\ IsUnspecified (net.IP_ (ipnet.IPNet_ (types.PodCIDR netConfig))) = true.
Proof.
  unfold clusterNets_of.
  destruct (types.ClusterNetworks netConfig) as [|cn cns]; simpl; [|done].
  destruct (IsUnspecified _); simpl; [|done].
  by intros [= <-].
Qed.

Lemma clusterNets_of_Ok netConfig clusterNets :
  clusterNets_of netConfig = Ok clusterNets ->
  clusterNets =
    match types.ClusterNetworks netConfig with
    | [] => [ {| netopv1.CIDR := IPNet_String (types.PodCIDR netConfig);
                 netopv1.HostSubnetLength := 9 |} ]
    | nets => nets
    end.
Proof.
  unfold clusterNets_of.
  destruct (types.ClusterNetworks netConfig) as [|cn cns]; simpl.
  - destruct (IsUnspecified _); simpl; [done|]. by intros [= <-].
  - by intros [= <-].
Qed.

(** X1. A [Generate] that returns no error leaves a configuration with the
    API version of the operator's scheme, kind NetworkConfig, name default
    and the service CIDR's string form as service network, and exactly two
    files: the fixed CRD text under the CRD file name, then the encoding of
    that configuration under the configuration file name. *)
Theorem Generate_success installConfig no :
  (Generate installConfig no).1 = None ->
  exists cfg configData,
    yaml.Marshal cfg = Ok configData
    /\ netopv1.TypeMeta cfg =
         {| metav1.APIVersion := SchemeGroupVersion_String;
            metav1.Kind := "NetworkConfig" |}
    /\ netopv1.ObjectMeta cfg = {| metav1.Name := "default" |}
    /\ netopv1.ServiceNetwork (netopv1.Spec cfg) =
         IPNet_String
           (types.ServiceCIDR
              (types.Networking_ (installconfig.Config installConfig)))
    /\ (Generate installConfig no).2 =
         {| config := Some cfg;
            FileList :=
              [ {| asset.Filename := noCrdFilename;
                   asset.Data := String.list_byte_of_string netConfigCRD |};
                {| asset.Filename := noCfgFilename;
                   asset.Data := configData |} ] |}.
Proof.
  unfold Generate.
  destruct (clusterNets_of _) as [clusterNets|e]; [|done].
  match goal with |- context [yaml.Marshal ?c] => set (cfg := c) end.
  destruct (yaml.Marshal cfg) as [configData|err] eqn:Hyaml; [|done].
  intros _. by exists cfg, configData.
Qed.

(** X2. A [Generate] that returns an error leaves the file list as it was.
    The error is either the one for the missing networking, returned exactly
    when the cluster-network list is empty and the pod CIDR unspecified, with
    the asset untouched; or the encoder's error, wrapped, with the
    configuration that the encoder rejected already stored in the asset. *)
Theorem Generate_failure installConfig no e :
  let netConfig := types.Networking_ (installconfig.Config installConfig) in
  (Generate installConfig no).1 = Some e ->
  FileList (Generate installConfig no).2 = FileList no
  /\ ((e = Errorf "Either PodCIDR or ClusterNetworks must be specified"
       /\ types.ClusterNetworks netConfig = []
       /\ IsUnspecified (net.IP_ (ipnet.IPNet_ (types.PodCIDR netConfig)))
          = true
       /\ (Generate installConfig no).2 = no)
      \/ (exists cfg err,
            yaml.Marshal cfg = Err err
            /\ e = Wrapf err "failed to create Network Config manifests from InstallConfig"
            /\ config (Generate installConfig no).2 = Some cfg)).
Proof.
  intros netConfig. unfold Generate. fold netConfig.
  destruct (clusterNets_of netConfig) as [clusterNets|e'] eqn:Hnets.
  - match goal with |- context [yaml.Marshal ?c] => set (cfg := c) end.
    destruct (yaml.Marshal cfg) as [configData|err] eqn:Hyaml; [done|].
    simpl. intros [= <-]. split; [done|]. right. by exists cfg, err.
  - simpl. intros [= <-]. split; [done|]. left.
    destruct (clusterNets_of_Err _ _ Hnets) as (-> & Hnil & Hip). done.
Qed.

(** X3. With a non-empty cluster-network list the pod CIDR plays no part:
    two install configs with the same network type, service CIDR and
    cluster-network list give the same [Generate], whatever their pod
    CIDRs. *)
Theorem Generate_ignores_PodCIDR installConfig installConfig' no :
  let netConfig := types.Networking_ (installconfig.Config installConfig) in
  let netConfig' := types.Networking_ (installconfig.Config installConfig') in
  types.ClusterNetworks netConfig <> [] ->
  types.ClusterNetworks netConfig' = types.ClusterNetworks netConfig ->
  types.Type_ netConfig' = types.Type_ netConfig ->
  types.ServiceCIDR netConfig' = types.ServiceCIDR netConfig ->
  Generate installConfig' no = Generate installConfig no.
Proof.
  intros netConfig netConfig' Hne Hnets Htype Hsvc.
  unfold Generate. fold netConfig netConfig'.
  rewrite (clusterNets_of_explicit netConfig Hne).
  rewrite (clusterNets_of_explicit netConfig') by by rewrite Hnets.
  unfold defaultNet_of. by rewrite Hnets, Htype, Hsvc.
Qed.

(** X4. What [Generate] returns does not depend on what the asset held
    before, and neither does the asset it leaves when it returns no error:
    a successful [Generate] overwrites both fields. *)
Theorem Generate_overwrites installConfig no no' :
  (Generate installConfig no).1 = (Generate installConfig no').1
  /\ ((Generate installConfig no).1 = None ->
      (Generate installConfig no).2 = (Generate installConfig no').2).
Proof.
  unfold Generate.
  destruct (clusterNets_of _) as [clusterNets|e]; [|done].
  by destruct (yaml.Marshal _).
Qed.

(** X5. [Generate] is idempotent: run again on the asset it has left, with
    the same install config, it returns the same and leaves the same, also
    when it fails. *)
Theorem Generate_idempotent installConfig no :
  Generate installConfig (Generate installConfig no).2 =
    Generate installConfig no.
Proof.
  unfold Generate.
  destruct (clusterNets_of _) as [clusterNets|e]; simpl; [|done].
  by destruct (yaml.Marshal _) as [configData|err].
Qed.

(** X6. After a [Generate] that returns no error, [ClusterNetwork] answers
    with the service CIDR's string form as the only services block, and as
    pods blocks the CIDRs of the install config's cluster networks, in
    order, or the pod CIDR's string form alone when that list is empty. *)
Theorem ClusterNetwork_after_Generate installConfig no :
  let netConfig := types.Networking_ (installconfig.Config installConfig) in
  (Generate installConfig no).1 = None ->
  ClusterNetwork (Generate installConfig no).2 =
    Ok {| clusterv1a1.Services :=
            {| clusterv1a1.CIDRBlocks :=
                 [IPNet_String (types.ServiceCIDR netConfig)] |};
          clusterv1a1.Pods :=
            {| clusterv1a1.CIDRBlocks :=
                 match types.ClusterNetworks netConfig with
                 | [] => [IPNet_String (types.PodCIDR netConfig)]
                 | nets => map netopv1.CIDR nets
                 end |} |}.
Proof.
  intros netConfig Hok.
  destruct (clusterNets_of netConfig) as [clusterNets|e] eqn:Hnets.
  - destruct (Generate_determined installConfig no _ Hnets)
      as (cfg & Hspec & Hgen).
    rewrite Hgen in Hok |- *.
    assert (config (match yaml.Marshal cfg with
                    | Ok configData =>
                      (None, {| config := Some cfg;
                                FileList := generated_files configData |})
                    | Err err =>
                      (Some (Wrapf err "failed to create Network Config manifests from InstallConfig"),
                       {| config := Some cfg; FileList := FileList no |})
                    end).2 = Some cfg) as Hcfg
      by by destruct (yaml.Marshal cfg).
    unfold ClusterNetwork. rewrite Hcfg, Hspec. simpl.
    rewrite ClusterNetwork_pods, (clusterNets_of_Ok _ _ Hnets). simpl.
    fold netConfig. by destruct (types.ClusterNetworks netConfig).
  - unfold Generate in Hok. fold netConfig in Hok. by rewrite Hnets in Hok.
Qed.

End NetworkingGenerate.

Section NetworkingLoad.
Import manifests.
Context `{Collaborators}.
Context `{!yaml.Marshaler netopv1.NetworkConfig}.
Context `{!yaml.Unmarshaler netopv1.NetworkConfig}.
Context {F : Type} `{!asset.FileFetcher F}.

Lemma Load_decoded (f : F) no crdFile cfgFile netConfig :
  asset.FetchByName f noCrdFilename = Ok crdFile ->
  asset.FetchByName f noCfgFilename = Ok cfgFile ->
  yaml.Unmarshal (asset.Data cfgFile) = Ok netConfig ->
  Load f no =
    ((true, None),
     {| config := Some netConfig; FileList := [crdFile; cfgFile] |}).
Proof. intros Hcrd Hcfg Hyaml. unfold Load. by rewrite Hcrd, Hcfg, Hyaml. Qed.

(** X7. [Load] returns true exactly when both files are fetched and the
    configuration file decodes; the asset then holds the decoded
    configuration and the two fetched files, CRD file first, and the error
    is [nil]. *)
Theorem Load_true_iff (f : F) no :
  (Load f no).1.1 = true <->
  exists crdFile cfgFile netConfig,
    asset.FetchByName f noCrdFilename = Ok crdFile
    /\ asset.FetchByName f noCfgFilename = Ok cfgFile
    /\ yaml.Unmarshal (asset.Data cfgFile) = Ok netConfig
    /\ (Load f no).1.2 = None
    /\ config (Load f no).2 = Some netConfig
    /\ Files (Load f no).2 = [crdFile; cfgFile].
Proof.
  split.
  - unfold Load.
    destruct (asset.FetchByName f noCrdFilename) as [crdFile|err];
      [|destruct (os.IsNotExist err); simpl; intros [=]].
    destruct (asset.FetchByName f noCfgFilename) as [cfgFile|err];
      [|destruct (os.IsNotExist err); simpl; intros [=]].
    destruct (yaml.Unmarshal (asset.Data cfgFile)) as [netConfig|err]
      eqn:Hyaml; [|simpl; intros [=]].
    intros _. by exists crdFile, cfgFile, netConfig.
  - intros (crdFile & cfgFile & netConfig & Hcrd & Hcfg & Hyaml & _).
    by rewrite (Load_decoded f no _ _ _ Hcrd Hcfg Hyaml).
Qed.

(** X8. [Load] reports the asset as not found, false with a [nil] error,
    only for a file that does not exist: exactly when the fetch of the CRD
    file fails with an error on which [os.IsNotExist] holds, or that fetch
    succeeds and the fetch of the configuration file fails with such an
    error. A file that does not decode is never reported so. *)
Theorem Load_not_found_iff (f : F) no :
  (Load f no).1 = (false, None) <->
  (exists err, asset.FetchByName f noCrdFilename = Err err
               /\ os.IsNotExist err = true)
  \/ (exists crdFile err,
        asset.FetchByName f noCrdFilename = Ok crdFile
        /\ asset.FetchByName f noCfgFilename = Err err
        /\ os.IsNotExist err = true).
Proof.
  split.
  - unfold Load.
    destruct (asset.FetchByName f noCrdFilename) as [crdFile|err] eqn:Hcrd.
    + destruct (asset.FetchByName f noCfgFilename) as [cfgFile|err] eqn:Hcfg.
      * destruct (yaml.Unmarshal (asset.Data cfgFile)); simpl; intros [=].
      * destruct (os.IsNotExist err) eqn:Hne; simpl; intros [=].
        right. by exists crdFile, err.
    + destruct (os.IsNotExist err) eqn:Hne; simpl; intros [=].
      left. by exists err.
  - intros [(err & Hcrd & Hne)|(crdFile & err & Hcrd & Hcfg & Hne)];
      unfold Load; by rewrite Hcrd, ?Hcfg, Hne.
Qed.

(** X9. What [Load] returns does not depend on what the asset held before,
    and [Load] is idempotent: from the same fetcher, run again on the asset
    it has left, it returns the same and leaves the same. *)
Theorem Load_idempotent (f : F) no no' :
  (Load f no).1 = (Load f no').1
  /\ Load f (Load f no).2 = Load f no.
Proof.
  unfold Load.
  destruct (asset.FetchByName f noCrdFilename) as [crdFile|err];
    [|by destruct (os.IsNotExist err)].
  destruct (asset.FetchByName f noCfgFilename) as [cfgFile|err];
    [|by destruct (os.IsNotExist err)].
  by destruct (yaml.Unmarshal (asset.Data cfgFile)).
Qed.

(** X10. [Load] does not look into the CRD file: two fetchers that both
    return a CRD file, whichever, and answer alike for the configuration
    file make [Load] return the same and store the same configuration. *)
Theorem Load_ignores_CRD_content {G : Type} `{!asset.FileFetcher G}
    (f : F) (g : G) no crdFile crdFile' :
  asset.FetchByName f noCrdFilename = Ok crdFile ->
  asset.FetchByName g noCrdFilename = Ok crdFile' ->
  asset.FetchByName g noCfgFilename = asset.FetchByName f noCfgFilename ->
  (Load g no).1 = (Load f no).1
  /\ config (Load g no).2 = config (Load f no).2.
Proof.
  intros Hf Hg Hcfg. unfold Load. rewrite Hf, Hg, Hcfg.
  destruct (asset.FetchByName f noCfgFilename) as [cfgFile|err];
    [|by destruct (os.IsNotExist err)].
  by destruct (yaml.Unmarshal (asset.Data cfgFile)).
Qed.

(** X11. When the codec gives back what it encoded, [Load] recovers any
    configuration whose encoding is the content of the fetched
    configuration file, whatever the CRD file fetched with it holds and
    whatever the asset held before. *)
Theorem Load_marshalled (f : F) no crdFile cfgFile netConfig :
  yaml.RoundTrip netopv1.NetworkConfig ->
  asset.FetchByName f noCrdFilename = Ok crdFile ->
  asset.FetchByName f noCfgFilename = Ok cfgFile ->
  yaml.Marshal netConfig = Ok (asset.Data cfgFile) ->
  Load f no =
    ((true, None),
     {| config := Some netConfig; FileList := [crdFile; cfgFile] |}).
Proof.
  intros Hcodec Hcrd Hcfg Hyaml.
  apply Load_decoded; [done..|]. by apply Hcodec.
Qed.

(** X12. When the codec gives back what it encoded, an asset reloaded from
    the files of a successful [Generate] answers [ClusterNetwork] as the
    asset that generated them. *)
Theorem ClusterNetwork_after_reload installConfig no generated (f : F) no' :
  yaml.RoundTrip netopv1.NetworkConfig ->
  Generate installConfig no = (None, generated) ->
  (forall file, file ∈ Files generated ->
                asset.FetchByName f (asset.Filename file) = Ok file) ->
  ClusterNetwork (Load f no').2 = ClusterNetwork generated.
Proof.
  intros Hcodec Hgen Hfetch.
  destruct (clusterNets_of
              (types.Networking_ (installconfig.Config installConfig)))
    as [clusterNets|err] eqn:Hnets;
    [|unfold Generate in Hgen; by rewrite Hnets in Hgen].
  destruct (Generate_determined installConfig no _ Hnets)
    as (cfg & _ & Hcases).
  rewrite Hgen in Hcases.
  destruct (yaml.Marshal cfg) as [configData|err] eqn:Hyaml; [|done].
  injection Hcases as ->.
  unfold Files, generated_files in Hfetch. simpl in Hfetch.
  pose proof (Hfetch (asset.mk_File noCrdFilename
                        (String.list_byte_of_string netConfigCRD))) as Hcrd.
  pose proof (Hfetch (asset.mk_File noCfgFilename configData)) as Hcfg.
  simpl in Hcrd, Hcfg.
  rewrite (Load_decoded f no' _ _ cfg (Hcrd ltac:(set_solver))
             (Hcfg ltac:(set_solver)) (Hcodec _ _ Hyaml)).
  done.
Qed.

End NetworkingLoad.

(** * Further properties of the cluster DNS operator asset *)

(** ** The order of [sort.Strings] *)

Lemma Ascii_compare_spec (a b : Ascii.ascii) :
  CompareSpec (a = b) (Ascii.N_of_ascii a < Ascii.N_of_ascii b)%N
              (Ascii.N_of_ascii b < Ascii.N_of_ascii a)%N (Ascii.compare a b).
Proof.
  unfold Ascii.compare.
  destruct (N.compare_spec (Ascii.N_of_ascii a) (Ascii.N_of_ascii b)) as [Heq|Hlt|Hgt];
    constructor; [|done..].
  by rewrite <- (Ascii.ascii_N_embedding a), <- (Ascii.ascii_N_embedding b), Heq.
Qed.

Lemma String_compare_refl (s : string) : String.compare s s = Eq.
Proof.
  induction s as [|c s IH]; simpl; [done|].
  destruct (Ascii_compare_spec c c); [done|lia..].
Qed.

Lemma String_compare_not_Gt_trans (s1 s2 s3 : string) :
  String.compare s1 s2 <> Gt -> String.compare s2 s3 <> Gt ->
  String.compare s1 s3 <> Gt.
Proof.
  revert s2 s3. induction s1 as [|c1 s1 IH]; intros [|c2 s2] [|c3 s3];
    simpl; try done.
  destruct (Ascii_compare_spec c1 c2) as [->|H12|H12]; [| |done].
  - destruct (Ascii_compare_spec c2 c3) as [->|H23|H23]; [| |done].
    + apply IH.
    + done.
  - destruct (Ascii_compare_spec c2 c3) as [->|H23|H23]; [| |done].
    + destruct (Ascii_compare_spec c1 c3) as [->|H13|H13]; [lia|done|lia].
    + destruct (Ascii_compare_spec c1 c3) as [->|H13|H13]; [lia|done|lia].
Qed.

Lemma String_leb_not_Gt (s1 s2 : string) :
  Is_true (String.leb s1 s2) <-> String.compare s1 s2 <> Gt.
Proof. unfold String.leb. by destruct (String.compare s1 s2). Qed.

#[local] Instance String_leb_Total
  : Total (fun a b : string => Is_true (String.leb a b)).
Proof.
  intros a b. destruct (String.leb_total a b) as [Hab|Hba].
  - left. by rewrite Hab.
  - right. by rewrite Hba.
Qed.

#[local] Instance String_leb_Transitive
  : Transitive (fun a b : string => Is_true (String.leb a b)).
Proof.
  intros a b c. rewrite !String_leb_not_Gt.
  apply String_compare_not_Gt_trans.
Qed.

#[local] Instance String_leb_AntiSymm
  : AntiSymm (=) (fun a b : string => Is_true (String.leb a b)).
Proof.
  intros a b Hab Hba. apply String.leb_antisym; by apply Is_true_true.
Qed.

Lemma String_ltb_leb (a b : string) :
  String.ltb a b = true <-> Is_true (String.leb a b) /\ a <> b.
Proof.
  unfold String.ltb, String.leb.
  destruct (String.compare a b) eqn:Hcmp; simpl.
  - apply String.compare_eq_iff in Hcmp. split; [done|]. by intros [_ Hne].
  - split; [|done]. intros _. split; [done|]. intros ->.
    by rewrite String_compare_refl in Hcmp.
  - split; [done|]. by intros [[] _].
Qed.

(** Sorting cannot tell two orders of the same keys apart. *)
Lemma sort_Strings_Permutation (keys keys' : list string) :
  keys ≡ₚ keys' ->
  manifests.cdo.sort_Strings keys = manifests.cdo.sort_Strings keys'.
Proof.
  intros Hperm. unfold manifests.cdo.sort_Strings.
  apply (Sorted_unique (fun a b : string => Is_true (String.leb a b)));
    [apply Sorted_merge_sort, _..|].
  by rewrite !merge_sort_Permutation.
Qed.

(** Without repetition, the sorted keys increase strictly. *)
Lemma sort_Strings_increasing (keys : list string) :
  NoDup keys ->
  StronglySorted (fun a b : string => String.ltb a b = true)
                 (manifests.cdo.sort_Strings keys).
Proof.
  intros Hnodup. unfold manifests.cdo.sort_Strings.
  pose proof (StronglySorted_merge_sort
                (fun a b : string => Is_true (String.leb a b)) keys) as Hs.
  assert (NoDup (merge_sort (fun a b : string => Is_true (String.leb a b))
                            keys)) as Hnd
    by by rewrite merge_sort_Permutation.
  induction Hs as [|k ks Hs IH Hk]; [constructor|].
  apply NoDup_cons in Hnd as [Hnotin Hnd].
  constructor; [by apply IH|].
  apply Forall_forall. intros k' Hin. apply String_ltb_leb. split.
  - by apply (proj1 (Forall_forall _ _) Hk).
  - intros ->. by apply Hnotin.
Qed.

Lemma foldl_snoc_map {A B} (f : A -> B) (l : list A) (acc : list B) :
  foldl (fun acc x => acc ++ [f x]) acc l = acc ++ map f l.
Proof.
  revert acc. induction l as [|x l IH]; intros acc; simpl.
  - by rewrite app_nil_r.
  - by rewrite IH, <- app_assoc.
Qed.

Section ClusterDNSGenerate.
Context {Asset Dependencies : Type} `{Collaborators}.
Variable GetInstallConfig : Asset -> Dependencies -> result types.InstallConfig.
Variable ClusterDNSIP : types.InstallConfig -> result string.
Variable OperatorAssetContent : result (gmap string bytes).
Context `{!yaml.Marshaler (result clusterdnsopapi.ClusterDNS)}.

Local Abbreviation Generate :=
  (manifests.cdo.Generate GetInstallConfig ClusterDNSIP OperatorAssetContent).
Local Abbreviation Generate_ranging :=
  (ranging.Generate GetInstallConfig ClusterDNSIP OperatorAssetContent).
Local Abbreviation dnsOperatorConfig :=
  (manifests.cdo.dnsOperatorConfig ClusterDNSIP).

(** The content made of an operator asset, and the one of the
    configuration. *)
Local Abbreviation asset_content assetData :=
  (fun k : string =>
     {| asset.Name := filepath_Join "cluster-dns-operator" k;
        asset.Data_ := default [] (assetData !! k) |}).
Local Abbreviation config_content dnsConfig :=
  {| asset.Name := "cluster-dns-operator-config.yml";
     asset.Data_ := dnsConfig |}.

(** [Generate] where every step succeeds, at any order of the [range]. *)
Lemma Generate_ranging_Ok visit dependencies cdo ic dnsConfig assetData :
  GetInstallConfig (manifests.cdo.installConfigAsset cdo) dependencies
    = Ok ic ->
  yaml.Marshal (dnsOperatorConfig ic) = Ok dnsConfig ->
  OperatorAssetContent = Ok assetData ->
  Generate_ranging visit dependencies cdo =
    (Ok {| asset.Contents :=
             map (asset_content assetData) (manifests.cdo.sort_Strings visit)
             ++ [config_content dnsConfig] |},
     {| manifests.cdo.installConfigAsset :=
          manifests.cdo.installConfigAsset cdo;
        manifests.cdo.installConfig := Some ic |}).
Proof.
  intros Hic Hyaml Hdata.
  unfold ranging.Generate, manifests.cdo.dnsConfig, manifests.cdo.assetData.
  rewrite Hic, Hyaml, Hdata.
  by rewrite !foldl_snoc_map, map_id.
Qed.

Lemma Generate_is_ranging dependencies cdo :
  Generate dependencies cdo =
    Generate_ranging
      (match OperatorAssetContent with
       | Ok assetData => map fst (map_to_list assetData)
       | Err _ => []
       end) dependencies cdo.
Proof.
  unfold manifests.cdo.Generate, ranging.Generate, manifests.cdo.assetData.
  by destruct OperatorAssetContent.
Qed.

Lemma Generate_Ok dependencies cdo ic dnsConfig assetData :
  GetInstallConfig (manifests.cdo.installConfigAsset cdo) dependencies
    = Ok ic ->
  yaml.Marshal (dnsOperatorConfig ic) = Ok dnsConfig ->
  OperatorAssetContent = Ok assetData ->
  Generate dependencies cdo =
    (Ok {| asset.Contents :=
             map (asset_content assetData)
                 (manifests.cdo.sort_Strings (map_to_list assetData).*1)
             ++ [config_content dnsConfig] |},
     {| manifests.cdo.installConfigAsset :=
          manifests.cdo.installConfigAsset cdo;
        manifests.cdo.installConfig := Some ic |}).
Proof.
  intros Hic Hyaml Hdata. rewrite Generate_is_ranging.
  rewrite (Generate_ranging_Ok _ _ _ _ _ _ Hic Hyaml Hdata).
  by rewrite Hdata.
Qed.

Lemma sorted_keys_elem_of (assetData : gmap string bytes) k :
  k ∈ manifests.cdo.sort_Strings (map_to_list assetData).*1
  <-> is_Some (assetData !! k).
Proof.
  unfold manifests.cdo.sort_Strings. rewrite merge_sort_Permutation.
  rewrite list_elem_of_fmap. split.
  - intros ([k' v] & -> & Hin). apply elem_of_map_to_list in Hin. by exists v.
  - intros [v Hv]. exists (k, v). split; [done|].
    by apply elem_of_map_to_list.
Qed.

(** X13. Where the install config is there, the helper gives the cluster
    IP, the encoder accepts the configuration made of that IP and of the
    install config's base domain, and the operator's assets are there,
    [Generate] returns a state with one content per asset and one more, the
    last: the configuration file with the encoder's bytes. *)
Theorem cdo_Generate_contents dependencies cdo ic clusterIP dnsConfig assetData :
  GetInstallConfig (manifests.cdo.installConfigAsset cdo) dependencies
    = Ok ic ->
  ClusterDNSIP ic = Ok clusterIP ->
  yaml.Marshal
    (Ok {| clusterdnsopapi.Spec :=
             {| clusterdnsopapi.ClusterIP := Some clusterIP;
                clusterdnsopapi.ClusterDomain :=
                  Some (types.BaseDomain ic) |} |}) = Ok dnsConfig ->
  OperatorAssetContent = Ok assetData ->
  exists state,
    (Generate dependencies cdo).1 = Ok state
    /\ length (asset.Contents state) = S (size assetData)
    /\ last (asset.Contents state) = Some (config_content dnsConfig).
Proof.
  intros Hic Hip Hyaml Hdata.
  assert (yaml.Marshal (dnsOperatorConfig ic) = Ok dnsConfig) as Hyaml'
    by (unfold manifests.cdo.dnsOperatorConfig; by rewrite Hip).
  rewrite (Generate_Ok _ _ _ _ _ Hic Hyaml' Hdata).
  eexists. split; [reflexivity|]. simpl. split.
  - rewrite length_app, length_map. unfold manifests.cdo.sort_Strings.
    rewrite merge_sort_Permutation, length_fmap, length_map_to_list.
    simpl. lia.
  - by rewrite last_snoc.
Qed.

(** X14. The contents that [Generate] returns before the configuration file
    are those of the keys of the asset map in strictly increasing order of
    string comparison, each key once: the output is sorted by file name
    under the operator's directory. *)
Theorem cdo_Generate_sorted dependencies cdo ic dnsConfig assetData :
  GetInstallConfig (manifests.cdo.installConfigAsset cdo) dependencies
    = Ok ic ->
  yaml.Marshal (dnsOperatorConfig ic) = Ok dnsConfig ->
  OperatorAssetContent = Ok assetData ->
  exists keys,
    (Generate dependencies cdo).1 =
      Ok {| asset.Contents :=
              map (asset_content assetData) keys
              ++ [config_content dnsConfig] |}
    /\ StronglySorted (fun a b : string => String.ltb a b = true) keys
    /\ (forall k, k ∈ keys <-> is_Some (assetData !! k)).
Proof.
  intros Hic Hyaml Hdata.
  exists (manifests.cdo.sort_Strings (map_to_list assetData).*1).
  rewrite (Generate_Ok _ _ _ _ _ Hic Hyaml Hdata). split; [done|]. split.
  - apply sort_Strings_increasing, NoDup_fst_map_to_list.
  - apply sorted_keys_elem_of.
Qed.

(** X15. No asset is dropped, changed or invented: a content is in the
    state that [Generate] returns exactly when it is the configuration file
    or an asset of the map, under its key joined to the operator's
    directory and with its bytes. *)
Theorem cdo_Generate_delivers dependencies cdo ic dnsConfig assetData state c :
  GetInstallConfig (manifests.cdo.installConfigAsset cdo) dependencies
    = Ok ic ->
  yaml.Marshal (dnsOperatorConfig ic) = Ok dnsConfig ->
  OperatorAssetContent = Ok assetData ->
  (Generate dependencies cdo).1 = Ok state ->
  c ∈ asset.Contents state <->
  c = config_content dnsConfig
  \/ exists k data,
       assetData !! k = Some data
       /\ c = {| asset.Name := filepath_Join "cluster-dns-operator" k;
                 asset.Data_ := data |}.
Proof.
  intros Hic Hyaml Hdata.
  rewrite (Generate_Ok _ _ _ _ _ Hic Hyaml Hdata). simpl. intros [= <-].
  simpl. rewrite elem_of_app, list_elem_of_singleton.
  change (map ?f ?l) with (f <$> l). rewrite list_elem_of_fmap. split.
  - intros [(k & -> & Hk) | ->]; [|by left].
    apply sorted_keys_elem_of in Hk as [data Hk].
    right. exists k, data. by rewrite Hk.
  - intros [-> | (k & data & Hk & ->)]; [by right|].
    left. exists k. rewrite Hk. split; [done|].
    apply sorted_keys_elem_of. by exists data.
Qed.

(** X16. The state that [Generate] returns does not depend on the order in
    which the [range] over the asset map visits its keys: at every order
    that visits each key once, [Generate] is the same. *)
Theorem cdo_Generate_any_order visit dependencies cdo :
  (forall assetData,
     OperatorAssetContent = Ok assetData ->
     visit ≡ₚ (map_to_list assetData).*1) ->
  Generate_ranging visit dependencies cdo = Generate dependencies cdo.
Proof.
  intros Hvisit. rewrite Generate_is_ranging.
  unfold ranging.Generate, manifests.cdo.assetData.
  destruct (GetInstallConfig _ _) as [ic|err]; [|done].
  destruct (manifests.cdo.dnsConfig _ _) as [dnsConfig|err]; [|done].
  destruct OperatorAssetContent as [assetData|err]; [|done].
  rewrite !foldl_snoc_map, !map_id. simpl.
  by rewrite (sort_Strings_Permutation _ _ (Hvisit assetData eq_refl)).
Qed.

(** X17. An error that [Generate] returns is the one that
    [GetInstallConfig] returned, or else the one that [dnsConfig] returned,
    or else the one that [assetData] returned, unchanged; no state comes
    with it, and each of the three goes before the next. *)
Theorem cdo_Generate_error_origin dependencies cdo err :
  (Generate dependencies cdo).1 = Err err <->
  GetInstallConfig (manifests.cdo.installConfigAsset cdo) dependencies
    = Err err
  \/ exists ic,
       GetInstallConfig (manifests.cdo.installConfigAsset cdo) dependencies
         = Ok ic
       /\ (manifests.cdo.dnsConfig ClusterDNSIP ic = Err err
           \/ (is_Ok (manifests.cdo.dnsConfig ClusterDNSIP ic) = true
               /\ manifests.cdo.assetData OperatorAssetContent = Err err)).
Proof.
  unfold manifests.cdo.Generate.
  split.
  - destruct (GetInstallConfig _ _) as [ic|e]; simpl;
      [|intros [= ->]; by left].
    destruct (manifests.cdo.dnsConfig ClusterDNSIP ic) as [dnsConfig|e]
      eqn:Hdns; simpl; [|intros [= ->]; right; exists ic; auto].
    destruct (manifests.cdo.assetData OperatorAssetContent)
      as [assetData|e]; simpl; intros [= ->].
    right. exists ic. rewrite Hdns. auto.
  - intros [Hic|(ic & Hic & [Hdns|[Hdns Hdata]])]; rewrite Hic; simpl.
    + done.
    + by rewrite Hdns.
    + destruct (manifests.cdo.dnsConfig ClusterDNSIP ic); [|done].
      by rewrite Hdata.
Qed.

(** X18. [Generate] never changes the asset's [installConfigAsset]; it
    stores the install config in the asset as soon as [GetInstallConfig]
    returns it, whatever the later steps do, and leaves the asset as it was
    when [GetInstallConfig] fails. *)
Theorem cdo_Generate_receiver dependencies cdo :
  manifests.cdo.installConfigAsset (Generate dependencies cdo).2 =
    manifests.cdo.installConfigAsset cdo
  /\ manifests.cdo.installConfig (Generate dependencies cdo).2 =
       match GetInstallConfig (manifests.cdo.installConfigAsset cdo)
                              dependencies with
       | Ok ic => Some ic
       | Err _ => manifests.cdo.installConfig cdo
       end.
Proof.
  unfold manifests.cdo.Generate.
  destruct (GetInstallConfig _ _) as [ic|err]; [|done].
  destruct (manifests.cdo.dnsConfig _ _) as [dnsConfig|err]; [|done].
  by destruct (manifests.cdo.assetData _).
Qed.

End ClusterDNSGenerate.

(** * The further properties at the sample inputs *)

Lemma Generate_success_witness :
  exists (cfg : netopv1.NetworkConfig) configData,
    yaml.Marshal cfg = Ok configData
    /\ manifests.Files (Samples.generated Samples.legacy) =
         [ {| asset.Filename := "manifests/cluster-network-01-crd.yml";
              asset.Data :=
                String.list_byte_of_string manifests.netConfigCRD |};
           {| asset.Filename := "manifests/cluster-network-02-config.yml";
              asset.Data := configData |} ].
Proof.
  assert ((manifests.Generate Samples.legacy manifests.Networking_zero).1
          = None) as Hok by reflexivity.
  destruct (Generate_success Samples.legacy manifests.Networking_zero Hok)
    as (cfg & configData & Hyaml & _ & _ & _ & Hstate).
  exists cfg, configData. split; [exact Hyaml|].
  unfold Samples.generated. rewrite Hstate. reflexivity.
Defined.

Lemma Generate_failure_witness :
  manifests.FileList
    (@manifests.Generate Reference.collaborators Samples2.refusing
       Samples.legacy manifests.Networking_zero).2 = []
  /\ is_Some
       (manifests.config
          (@manifests.Generate Reference.collaborators Samples2.refusing
             Samples.legacy manifests.Networking_zero).2).
Proof.
  assert ((@manifests.Generate Reference.collaborators Samples2.refusing
             Samples.legacy manifests.Networking_zero).1
          = Some (Wrapf (Foreign false "json: unsupported value")
                        "failed to create Network Config manifests from InstallConfig"))
    as Herr by reflexivity.
  destruct (@Generate_failure Reference.collaborators Samples2.refusing
              Samples.legacy manifests.Networking_zero _ Herr)
    as [Hfiles _].
  split; [exact Hfiles|]. eexists. reflexivity.
Defined.

Lemma Generate_ignores_PodCIDR_witness :
  manifests.Generate
    (Samples.install "OVNKubernetes" Samples.two_nets Samples.unspecified)
    manifests.Networking_zero =
  manifests.Generate Samples.explicit manifests.Networking_zero.
Proof.
  assert (Samples.two_nets <> []) as Hne by discriminate.
  exact (Generate_ignores_PodCIDR
           Samples.explicit
           (Samples.install "OVNKubernetes" Samples.two_nets
                            Samples.unspecified)
           manifests.Networking_zero Hne eq_refl eq_refl eq_refl).
Defined.

Lemma Generate_overwrites_witness :
  (manifests.Generate Samples.explicit (Samples.generated Samples.legacy)).2 =
    Samples.generated Samples.explicit.
Proof.
  destruct (Generate_overwrites Samples.explicit
              (Samples.generated Samples.legacy) manifests.Networking_zero)
    as [_ Hstate].
  apply Hstate. reflexivity.
Defined.

Lemma ClusterNetwork_after_Generate_witness :
  manifests.ClusterNetwork (Samples.generated Samples.legacy) =
    Ok {| clusterv1a1.Services :=
            {| clusterv1a1.CIDRBlocks := ["172.30.0.0/16"] |};
          clusterv1a1.Pods :=
            {| clusterv1a1.CIDRBlocks := ["10.128.0.0/14"] |} |}.
Proof.
  assert ((manifests.Generate Samples.legacy manifests.Networking_zero).1
          = None) as Hok by reflexivity.
  exact (ClusterNetwork_after_Generate
           Samples.legacy manifests.Networking_zero Hok).
Defined.

Lemma Load_true_iff_witness :
  exists crdFile cfgFile netConfig,
    asset.FetchByName Samples2.edited manifests.noCrdFilename = Ok crdFile
    /\ asset.FetchByName Samples2.edited manifests.noCfgFilename = Ok cfgFile
    /\ yaml.Unmarshal (asset.Data cfgFile) = Ok netConfig
    /\ (manifests.Load Samples2.edited manifests.Networking_zero).1.2 = None
    /\ manifests.config
         (manifests.Load Samples2.edited manifests.Networking_zero).2
       = Some netConfig
    /\ manifests.Files
         (manifests.Load Samples2.edited manifests.Networking_zero).2
       = [crdFile; cfgFile].
Proof.
  apply (proj1 (Load_true_iff Samples2.edited manifests.Networking_zero)).
  vm_compute. reflexivity.
Defined.

Lemma Load_not_found_iff_witness :
  (manifests.Load Samples2.crd_only manifests.Networking_zero).1 =
    (false, None).
Proof.
  apply (proj2 (Load_not_found_iff Samples2.crd_only
                  manifests.Networking_zero)).
  right. eexists _, _. repeat split; reflexivity.
Defined.

Lemma Load_ignores_CRD_content_witness :
  (manifests.Load Samples2.edited manifests.Networking_zero).1 =
    (manifests.Load (manifests.Files (Samples.generated Samples.explicit))
                    manifests.Networking_zero).1
  /\ manifests.config
       (manifests.Load Samples2.edited manifests.Networking_zero).2 =
     manifests.config
       (manifests.Load (manifests.Files (Samples.generated Samples.explicit))
                       manifests.Networking_zero).2.
Proof.
  eapply (Load_ignores_CRD_content
            (manifests.Files (Samples.generated Samples.explicit))
            Samples2.edited manifests.Networking_zero); reflexivity.
Defined.

Lemma Load_marshalled_witness :
  manifests.config
    (manifests.Load Samples2.edited manifests.Networking_zero).2 =
    manifests.config (Samples.generated Samples.explicit).
Proof.
  destruct (manifests.config (Samples.generated Samples.explicit))
    as [netConfig|] eqn:Hcfg; [|discriminate Hcfg].
  injection Hcfg as <-.
  erewrite (Load_marshalled Samples2.edited manifests.Networking_zero);
    [reflexivity|exact Reference_RoundTrip|reflexivity..].
Defined.

Lemma ClusterNetwork_after_reload_witness :
  manifests.ClusterNetwork
    (manifests.Load (manifests.Files (Samples.generated Samples.explicit))
                    manifests.Networking_zero).2 =
    manifests.ClusterNetwork (Samples.generated Samples.explicit).
Proof.
  apply (ClusterNetwork_after_reload
           Samples.explicit manifests.Networking_zero).
  - exact Reference_RoundTrip.
  - reflexivity.
  - exact (Reference_fetch_generated _).
Defined.

Lemma cdo_Generate_contents_witness :
  exists state dnsConfig,
    (manifests.cdo.Generate Samples.GetInstallConfig Samples2.ClusterDNSIP
       Samples2.OperatorAssetContent tt Samples.dns).1 = Ok state
    /\ length (asset.Contents state) = 4
    /\ last (asset.Contents state) =
         Some {| asset.Name := "cluster-dns-operator-config.yml";
                 asset.Data_ := dnsConfig |}.
Proof.
  destruct (cdo_Generate_contents
              Samples.GetInstallConfig Samples2.ClusterDNSIP
              Samples2.OperatorAssetContent tt Samples.dns
              Samples.no_services "172.30.0.10" _ Samples2.assets
              eq_refl eq_refl eq_refl eq_refl)
    as (state & Hstate & Hlength & Hlast).
  exists state. eexists. split; [exact Hstate|].
  split; [exact Hlength|exact Hlast].
Defined.

Lemma cdo_Generate_sorted_witness :
  exists keys dnsConfig,
    (manifests.cdo.Generate Samples.GetInstallConfig Samples2.ClusterDNSIP
       Samples2.OperatorAssetContent tt Samples.dns).1 =
      Ok {| asset.Contents :=
              map (fun k : string =>
                     {| asset.Name := "cluster-dns-operator" +:+ "/" +:+ k;
                        asset.Data_ := default [] (Samples2.assets !! k) |})
                  keys
              ++ [ {| asset.Name := "cluster-dns-operator-config.yml";
                      asset.Data_ := dnsConfig |} ] |}
    /\ StronglySorted (fun a b : string => String.ltb a b = true) keys
    /\ (forall k, k ∈ keys <-> is_Some (Samples2.assets !! k)).
Proof.
  destruct (cdo_Generate_sorted
              Samples.GetInstallConfig Samples2.ClusterDNSIP
              Samples2.OperatorAssetContent tt Samples.dns
              Samples.no_services _ Samples2.assets
              eq_refl eq_refl eq_refl)
    as (keys & Hstate & Hsorted & Hkeys).
  exists keys. eexists. split; [exact Hstate|].
  split; [exact Hsorted|exact Hkeys].
Defined.

Lemma cdo_Generate_delivers_witness :
  exists state,
    (manifests.cdo.Generate Samples.GetInstallConfig Samples2.ClusterDNSIP
       Samples2.OperatorAssetContent tt Samples.dns).1 = Ok state
    /\ {| asset.Name := "cluster-dns-operator/b.yaml";
          asset.Data_ := [Byte.x62] |} ∈ asset.Contents state.
Proof.
  destruct (manifests.cdo.Generate Samples.GetInstallConfig
              Samples2.ClusterDNSIP Samples2.OperatorAssetContent tt
              Samples.dns).1 as [state|err] eqn:Hstate;
    [|vm_compute in Hstate; discriminate Hstate].
  exists state. split; [reflexivity|].
  apply (proj2 (cdo_Generate_delivers
                  Samples.GetInstallConfig Samples2.ClusterDNSIP
                  Samples2.OperatorAssetContent tt Samples.dns
                  Samples.no_services _ Samples2.assets _ _
                  eq_refl eq_refl eq_refl Hstate)).
  right. exists "b.yaml", [Byte.x62]. split; reflexivity.
Defined.

Lemma cdo_Generate_any_order_witness :
  ranging.Generate Samples.GetInstallConfig Samples2.ClusterDNSIP
    Samples2.OperatorAssetContent ["c.yaml"; "a.yaml"; "b.yaml"] tt Samples.dns
  = manifests.cdo.Generate Samples.GetInstallConfig Samples2.ClusterDNSIP
      Samples2.OperatorAssetContent tt Samples.dns.
Proof.
  apply cdo_Generate_any_order.
  intros assetData [= <-].
  apply (bool_decide_unpack _). vm_compute. exact I.
Defined.

Lemma cdo_Generate_error_origin_witness :
  (manifests.cdo.Generate Samples.GetInstallConfig Samples2.ClusterDNSIP
     Samples2.failing_assets tt Samples.dns).1 =
    Err (Foreign false "asset not found").
Proof.
  apply (proj2 (cdo_Generate_error_origin
                  Samples.GetInstallConfig Samples2.ClusterDNSIP
                  Samples2.failing_assets tt Samples.dns _)).
  right. exists Samples.no_services. split; [reflexivity|].
  right. split; reflexivity.
Defined.
